(** * formatRelative: the date in words relative to a base date

    A shallow embedding of [src/formatRelative/index.ts] (date-fns) and the
    properties its specification states about it.

    The function is straight-line code around a handful of imported helpers.
    The embedding keeps that shape: every call to an imported function is
    recorded in a call log, exceptions short-circuit the rest of the body, and
    the helpers whose code lives in other modules of the library are the
    fields of a [Host] interface. *)

From Stdlib Require Import ZArith List String Bool Lia.
From Stdlib Require Import DecimalString.
Import ListNotations.
Local Open Scope string_scope.
Local Open Scope list_scope.
Local Open Scope Z_scope.
Set Warnings "-notation-for-abbreviation".

(** ** Values *)

(** A JavaScript number as this function meets it: a time value, a number of
    days or a week-day index, each an integer or [NaN]. *)
Inductive number : Type :=
| NaN
| Int (z : Z).

Definition isNaN (n : number) : bool :=
  match n with
  | NaN => true
  | Int _ => false
  end.

(** [a < b] on numbers: every comparison with [NaN] is false. *)
Definition number_ltb (a b : number) : bool :=
  match a, b with
  | Int x, Int y => (x <? y)%Z
  | _, _ => false
  end.

Declare Scope js_scope.
Delimit Scope js_scope with js.
Infix "<?" := number_ltb (at level 70, no associativity) : js_scope.

(** A [Date] object is its time value: milliseconds since the epoch, or [NaN]
    for an Invalid Date. *)
Record Date : Type := mkDate { getTime : number }.

Definition InvalidDate : Date := mkDate NaN.

(** [FormatRelativeToken] of [src/locale/types]. *)
Inductive FormatRelativeToken : Type :=
| lastWeek
| yesterday
| today
| tomorrow
| nextWeek
| other.

Inductive Error : Type :=
| TypeError (message : string)
| RangeError (message : string).

(** How a call ends: with a value or with a thrown exception. *)
Inductive Completion (A : Type) : Type :=
| Return (a : A)
| Throw (e : Error).
Arguments Return {A} a.
Arguments Throw {A} e.

(** ** Locales and options *)

(** The objects a locale is made of are opaque to [formatRelative]: it tests
    their presence and calls one of them. *)
Class Realm : Type := {
  Localize : Type;
  FormatLong : Type;
  FormatRelativeFn : Type;
}.

Module LocaleOptions.
(** [locale.options]; [firstWeekContainsDate] is never read here. *)
Record t : Type := { weekStartsOn : option number }.
End LocaleOptions.

Module Locale.
(** [Locale]: every property is optional; [None] is a property that is
    missing (or nullish). *)
Record t `{Realm} : Type := {
  localize : option Localize;
  formatLong : option FormatLong;
  formatRelative : option FormatRelativeFn;
  options : option LocaleOptions.t;
}.
End Locale.
Notation Locale := Locale.t.

Module Options.
(** [FormatRelativeOptions], and the part of the process-wide
    [DefaultOptions] that is read: [LocaleOptions & WeekStartOptions]. *)
Record t `{Realm} : Type := {
  locale : option Locale;
  weekStartsOn : option number;
}.
End Options.
Notation FormatRelativeOptions := Options.t.
Notation DefaultOptions := Options.t.

Module Passed.
(** The object literal [{ locale, weekStartsOn }] handed to the locale's
    [formatRelative] and to [format]. *)
Record t `{Realm} : Type := {
  locale : Locale;
  weekStartsOn : number;
}.
End Passed.

(** What a caller can put in an argument position. *)
Inductive Value `{Realm} : Type :=
| VUndefined
| VNumber (n : number)
| VDate (d : Date)
| VOptions (o : FormatRelativeOptions).

(** Reading [options] out of the third argument position: a property of
    [undefined] read through [?.], or of a number or a Date, is undefined. *)
Definition optionsOf `{Realm} (v : Value) : option FormatRelativeOptions :=
  match v with
  | VOptions o => Some o
  | _ => None
  end.

(** ** Nullish operators *)

(** [o?.f] *)
Definition chain {A B} (o : option A) (f : A -> option B) : option B :=
  match o with
  | Some a => f a
  | None => None
  end.

(** [x ?? y] where [y] may itself be undefined. *)
Definition coalesce {A} (x y : option A) : option A :=
  match x with
  | Some _ => x
  | None => y
  end.

(** [x ?? d] where [d] is a value. *)
Definition coalesce_value {A} (x : option A) (d : A) : A :=
  match x with
  | Some a => a
  | None => d
  end.

Notation "o ?. f" := (chain o f) (at level 39, left associativity) : js_scope.
Notation "x ?? y" := (coalesce x y) (at level 41, left associativity) : js_scope.
Notation "x ??! d" := (coalesce_value x d) (at level 41, left associativity) : js_scope.

(** [!x] for a property that is an object or a function when present. *)
Definition missing {A} (x : option A) : bool :=
  match x with
  | Some _ => false
  | None => true
  end.

(** ** Calls and their log *)

Inductive Event `{Realm} : Type :=
| call_requiredArgs (required present : nat)
| call_toDate (argument : Value)
| call_getDefaultOptions
| call_toInteger (dirtyNumber : number)
| call_differenceInCalendarDays (dateLeft dateRight : Date)
| call_getTimezoneOffsetInMilliseconds (date : Date)
| call_subMilliseconds (date : Date) (amount : number)
| call_locale_formatRelative (fn : FormatRelativeFn) (token : FormatRelativeToken)
    (date baseDate : Date) (o : Passed.t)
| call_format (date : Date) (formatStr : string) (o : Passed.t)
| throw_statement (e : Error).

(** A computation: the calls it made and the [throw] statements it ran, in
    order, and how it ended. *)
Definition Exec `{Realm} (A : Type) : Type := (list Event * Completion A)%type.

Definition ret `{Realm} {A} (a : A) : Exec A := ([], Return a).

(** [throw new ...] in the body of [formatRelative] itself. *)
Definition throw `{Realm} {A} (e : Error) : Exec A := ([throw_statement e], Throw e).

Definition bind `{Realm} {A B} (m : Exec A) (k : A -> Exec B) : Exec B :=
  match m with
  | (log, Return a) => let (log', r) := k a in (log ++ log', r)
  | (log, Throw e) => (log, Throw e)
  end.

(** A call to an imported function that returns. *)
Definition invoke `{Realm} {A} (e : Event) (result : A) : Exec A :=
  ([e], Return result).

(** A call to an imported function that may throw. *)
Definition invoke_throwing `{Realm} {A} (e : Event) (result : Completion A) : Exec A :=
  ([e], result).

Definition calls `{Realm} {A} (m : Exec A) : list Event := fst m.
Definition completion `{Realm} {A} (m : Exec A) : Completion A := snd m.

Notation "x <- m ;; k" := (bind m (fun x => k))
  (at level 100, m at next level, right associativity) : js_scope.
Notation "m ;; k" := (bind m (fun _ => k))
  (at level 100, right associativity) : js_scope.

(** ** The imported helpers *)

(** The helpers that [formatRelative] imports and whose code is elsewhere in
    the library, with the objects of the built-in locale. None of [toDate],
    [toInteger], [differenceInCalendarDays],
    [getTimezoneOffsetInMilliseconds] and [subMilliseconds] throws; [format]
    and a locale's [formatRelative] may. *)
Class Host `{Realm} : Type := {
  toDate : Value -> Date;
  toInteger : number -> number;
  differenceInCalendarDays : Date -> Date -> number;
  getTimezoneOffsetInMilliseconds : Date -> number;
  subMilliseconds : Date -> number -> Date;
  format : Date -> string -> Passed.t -> Completion string;
  (** applying a locale's [formatRelative] function object *)
  apply_formatRelative :
    FormatRelativeFn -> FormatRelativeToken -> Date -> Date -> Passed.t -> Completion string;
  (** the objects of [_lib/defaultLocale] *)
  defaultLocale_localize : Localize;
  defaultLocale_formatLong : FormatLong;
  defaultLocale_formatRelative : FormatRelativeFn;
  defaultLocale_options : option LocaleOptions.t;
}.

(** Modelled from the spec: [defaultLocale] ([_lib/defaultLocale]) is imported
    and its code is missing. The spec has it as the locale that [options]
    defaults to, and a Locale is a bundle that exposes the three facilities
    [localize], [formatLong] and [formatRelative]. *)
Definition defaultLocale `{Host} : Locale :=
  {| Locale.localize := Some defaultLocale_localize;
     Locale.formatLong := Some defaultLocale_formatLong;
     Locale.formatRelative := Some defaultLocale_formatRelative;
     Locale.options := defaultLocale_options |}.

(** The process-wide state that [formatRelative] reads. *)
Record Process `{Realm} : Type := { defaultOptions : DefaultOptions }.

(** Modelled from the spec: [getDefaultOptions] ([_lib/defaultOptions]) is
    imported and its code is missing. The spec has it as the read-only source of the
    process-wide default options object. *)
Definition getDefaultOptions `{Realm} (process : Process) : Exec DefaultOptions :=
  invoke call_getDefaultOptions (defaultOptions process).

Definition decimal (n : nat) : string := NilZero.string_of_uint (Nat.to_uint n).

(** Modelled from the spec: [requiredArgs] ([_lib/requiredArgs]) is imported
    and its code is missing. The spec has the arity error raised when fewer
    positional arguments than required are supplied; the function's own
    documentation has it as [TypeError], "2 arguments required". *)
Definition requiredArgs `{Realm} (required : nat) (args : list Value) : Exec unit :=
  invoke_throwing (call_requiredArgs required (List.length args))
    (if (List.length args <? required)%nat
     then Throw (TypeError (decimal required ++ " arguments required")%string)
     else Return tt).

(** ** formatRelative *)

Section FormatRelative.
Context {realm : Realm} {host : Host}.
Local Open Scope js_scope.

(** Lines 94-109: the cascade that picks the token. *)
Definition token_of_diff (diff : number) : FormatRelativeToken :=
  if diff <? Int (-6) then other
  else if diff <? Int (-1) then lastWeek
  else if diff <? Int 0 then yesterday
  else if diff <? Int 1 then today
  else if diff <? Int 2 then tomorrow
  else if diff <? Int 7 then nextWeek
  else other.

(** Line 67. *)
Definition resolved_locale
    (options : option FormatRelativeOptions) (defaultOptions : DefaultOptions) : Locale :=
  options ?. Options.locale ?? Options.locale defaultOptions ??! defaultLocale.

(** Lines 69-73: the argument of [toInteger]. *)
Definition dirty_weekStartsOn
    (options : option FormatRelativeOptions) (defaultOptions : DefaultOptions) : number :=
  options ?. Options.weekStartsOn ??
  options ?. Options.locale ?. Locale.options ?. LocaleOptions.weekStartsOn ??
  Options.weekStartsOn defaultOptions ??
  Options.locale defaultOptions ?. Locale.options ?. LocaleOptions.weekStartsOn ??!
  Int 0.

(** The parameters as the body sees them. *)
Definition dirtyDate (arguments : list Value) : Value := nth 0 arguments VUndefined.
Definition dirtyBaseDate (arguments : list Value) : Value := nth 1 arguments VUndefined.
Definition options (arguments : list Value) : option FormatRelativeOptions :=
  optionsOf (nth 2 arguments VUndefined).

(** The values the constants [date], [baseDate], [locale], [weekStartsOn]
    and [diff] of the body take in a call. *)
Definition date_of (arguments : list Value) : Date := toDate (dirtyDate arguments).
Definition baseDate_of (arguments : list Value) : Date := toDate (dirtyBaseDate arguments).
Definition locale_of (process : Process) (arguments : list Value) : Locale :=
  resolved_locale (options arguments) (defaultOptions process).
Definition weekStartsOn_of (process : Process) (arguments : list Value) : number :=
  toInteger (dirty_weekStartsOn (options arguments) (defaultOptions process)).
Definition diff_of (arguments : list Value) : number :=
  differenceInCalendarDays (date_of arguments) (baseDate_of arguments).

(** The body, statement by statement. The test [!locale.formatRelative] and
    the later call [locale.formatRelative(...)] read the same property: the
    [match] binds the function object for the call. *)
Definition formatRelative (process : Process) (arguments : list Value) : Exec string :=
  let dirtyDate := dirtyDate arguments in
  let dirtyBaseDate := dirtyBaseDate arguments in
  let options := options arguments in
  requiredArgs 2 arguments ;;

  date <- invoke (call_toDate dirtyDate) (toDate dirtyDate) ;;
  baseDate <- invoke (call_toDate dirtyBaseDate) (toDate dirtyBaseDate) ;;

  defaultOptions <- getDefaultOptions process ;;
  let locale := resolved_locale options defaultOptions in
  let dirtyWeekStartsOn := dirty_weekStartsOn options defaultOptions in
  weekStartsOn <- invoke (call_toInteger dirtyWeekStartsOn) (toInteger dirtyWeekStartsOn) ;;

  if missing (Locale.localize locale) then
    throw (RangeError "locale must contain localize property")
  else
  if missing (Locale.formatLong locale) then
    throw (RangeError "locale must contain formatLong property")
  else
  match Locale.formatRelative locale with
  | None =>
    throw (RangeError "locale must contain formatRelative property")
  | Some locale_formatRelative =>

  diff <- invoke (call_differenceInCalendarDays date baseDate)
                 (differenceInCalendarDays date baseDate) ;;

  if isNaN diff then
    throw (RangeError "Invalid time value")
  else

  let token := token_of_diff diff in

  offset <- invoke (call_getTimezoneOffsetInMilliseconds date)
                   (getTimezoneOffsetInMilliseconds date) ;;
  utcDate <- invoke (call_subMilliseconds date offset) (subMilliseconds date offset) ;;
  baseOffset <- invoke (call_getTimezoneOffsetInMilliseconds baseDate)
                       (getTimezoneOffsetInMilliseconds baseDate) ;;
  utcBaseDate <- invoke (call_subMilliseconds baseDate baseOffset)
                        (subMilliseconds baseDate baseOffset) ;;
  let passed := {| Passed.locale := locale; Passed.weekStartsOn := weekStartsOn |} in
  formatStr <- invoke_throwing
                 (call_locale_formatRelative locale_formatRelative token utcDate utcBaseDate passed)
                 (apply_formatRelative locale_formatRelative token utcDate utcBaseDate passed) ;;
  invoke_throwing (call_format date formatStr passed) (format date formatStr passed)
  end.

(** Lines 61-74: the calls every call with two arguments starts with. *)
Definition prelude (process : Process) (arguments : list Value) : list Event :=
  [ call_requiredArgs 2 (List.length arguments);
    call_toDate (dirtyDate arguments);
    call_toDate (dirtyBaseDate arguments);
    call_getDefaultOptions;
    call_toInteger (dirty_weekStartsOn (options arguments) (defaultOptions process)) ].

(** Lines 111-115: the values of [utcDate] and [utcBaseDate]. *)
Definition utcDate_of (arguments : list Value) : Date :=
  subMilliseconds (date_of arguments) (getTimezoneOffsetInMilliseconds (date_of arguments)).
Definition utcBaseDate_of (arguments : list Value) : Date :=
  subMilliseconds (baseDate_of arguments)
    (getTimezoneOffsetInMilliseconds (baseDate_of arguments)).

(** Lines 116-120: the object literal [{ locale, weekStartsOn }]. *)
Definition passed_of (process : Process) (arguments : list Value) : Passed.t :=
  {| Passed.locale := locale_of process arguments;
     Passed.weekStartsOn := weekStartsOn_of process arguments |}.

End FormatRelative.

(** ** Reading a call log *)

Section Observations.
Context {realm : Realm}.

(** The tokens handed to a locale's [formatRelative]. *)
Fixpoint chosen_tokens (log : list Event) : list FormatRelativeToken :=
  match log with
  | [] => []
  | call_locale_formatRelative _ token _ _ _ :: log' => token :: chosen_tokens log'
  | _ :: log' => chosen_tokens log'
  end.

(** The [{ locale, weekStartsOn }] objects handed to a locale's
    [formatRelative] and to [format]. *)
Fixpoint passed_options (log : list Event) : list Passed.t :=
  match log with
  | [] => []
  | call_locale_formatRelative _ _ _ _ o :: log' => o :: passed_options log'
  | call_format _ _ o :: log' => o :: passed_options log'
  | _ :: log' => passed_options log'
  end.

(** The errors raised by the [throw] statements of [formatRelative]. *)
Fixpoint own_throws (log : list Event) : list Error :=
  match log with
  | [] => []
  | throw_statement e :: log' => e :: own_throws log'
  | _ :: log' => own_throws log'
  end.

(** The arguments of the calls to [toDate]. *)
Fixpoint coerced (log : list Event) : list Value :=
  match log with
  | [] => []
  | call_toDate v :: log' => v :: coerced log'
  | _ :: log' => coerced log'
  end.

(** A locale that has the three properties [formatRelative] tests for. *)
Definition complete (locale : Locale) : bool :=
  negb (missing (Locale.localize locale))
  && negb (missing (Locale.formatLong locale))
  && negb (missing (Locale.formatRelative locale)).

End Observations.

(** ** Calls *)

Section Calls.
Context {realm : Realm} {host : Host}.

(** A call that gets as far as choosing a token: two arguments, a locale
    with the three properties, a difference that is a number. *)
Definition valid_call (process : Process) (arguments : list Value) : Prop :=
  (2 <= List.length arguments)%nat /\
  complete (locale_of process arguments) = true /\
  isNaN (diff_of arguments) = false.

(** The five checks of the body in the order they are written, each with the
    error it raises. *)
Definition checks (process : Process) (arguments : list Value) : list (bool * Error) :=
  let locale := locale_of process arguments in
  [ ((List.length arguments <? 2)%nat, TypeError "2 arguments required");
    (missing (Locale.localize locale), RangeError "locale must contain localize property");
    (missing (Locale.formatLong locale), RangeError "locale must contain formatLong property");
    (missing (Locale.formatRelative locale),
     RangeError "locale must contain formatRelative property");
    (isNaN (diff_of arguments), RangeError "Invalid time value") ].

(** The priority chain of the specification for [weekStartsOn]: the
    explicit option, the configured default of the locale given in the
    options, the process-wide default option, the configured default of the
    process-wide default locale. *)
Definition priority_chain (process : Process) (arguments : list Value)
    : list (option number) :=
  let options := options arguments in
  let defaults := defaultOptions process in
  [ chain options Options.weekStartsOn;
    chain (chain (chain options Options.locale) Locale.options) LocaleOptions.weekStartsOn;
    Options.weekStartsOn defaults;
    chain (chain (Options.locale defaults) Locale.options) LocaleOptions.weekStartsOn ].

(** The contract of [differenceInCalendarDays] for invalid instants (§6):
    not-a-number if either date is invalid. *)
Definition difference_of_invalid_is_NaN : Prop :=
  forall dateLeft dateRight,
    isNaN (getTime dateLeft) = true \/ isNaN (getTime dateRight) = true ->
    differenceInCalendarDays dateLeft dateRight = NaN.

(** The contract of [differenceInCalendarDays] for one valid instant taken
    twice (§6): no calendar-day boundary lies between an instant and itself. *)
Definition difference_of_same_is_zero : Prop :=
  forall date, isNaN (getTime date) = false -> differenceInCalendarDays date date = Int 0.

End Calls.

(** ** The specification's tables *)

(** The six-bucket table of the specification (§4.1, step 3) for an integer
    difference. *)
Definition six_bucket_table (diff : Z) (token : FormatRelativeToken) : Prop :=
  (diff < -6 -> token = other) /\
  (-6 <= diff < -1 -> token = lastWeek) /\
  (diff = -1 -> token = yesterday) /\
  (diff = 0 -> token = today) /\
  (diff = 1 -> token = tomorrow) /\
  (2 <= diff < 7 -> token = nextWeek) /\
  (7 <= diff -> token = other).

(** The token for the same distance in the other direction. *)
Definition mirror (token : FormatRelativeToken) : FormatRelativeToken :=
  match token with
  | lastWeek => nextWeek
  | yesterday => tomorrow
  | today => today
  | tomorrow => yesterday
  | nextWeek => lastWeek
  | other => other
  end.

(** The differences of a token's bucket. *)
Definition bucket (token : FormatRelativeToken) (diff : Z) : Prop :=
  match token with
  | lastWeek => -6 <= diff <= -2
  | yesterday => diff = -1
  | today => diff = 0
  | tomorrow => diff = 1
  | nextWeek => 2 <= diff <= 6
  | other => diff < -6 \/ 6 < diff
  end.

(** The first defined value of a priority chain. *)
Fixpoint first_defined {A} (chain : list (option A)) : option A :=
  match chain with
  | [] => None
  | Some a :: _ => Some a
  | None :: chain' => first_defined chain'
  end.

(** The first applicable error of an ordered list of checks. *)
Fixpoint first_applicable (checks : list (bool * Error)) : option Error :=
  match checks with
  | [] => None
  | (true, e) :: _ => Some e
  | (false, _) :: checks' => first_applicable checks'
  end.

(** ** A sample host *)

(** Helpers that meet the contracts the specification gives for them (§6), in
    a zone with one daylight-saving transition, to run the model on concrete
    calls. *)
Module Sample.

#[global] Instance realm : Realm :=
  {| Localize := unit;
     FormatLong := unit;
     FormatRelativeFn := FormatRelativeToken -> string |}.

Definition MILLISECONDS_IN_HOUR : Z := 3600000.
Definition MILLISECONDS_IN_DAY : Z := 86400000.

(** 2021-03-28T01:00:00Z: the zone goes from UTC+1 to UTC+2. *)
Definition transition : Z := 1616893200000.

(** Local time minus UTC at the instant [t]. *)
Definition zone (t : Z) : Z :=
  if t <? transition then MILLISECONDS_IN_HOUR else 2 * MILLISECONDS_IN_HOUR.

Definition toDate (argument : Value) : Date :=
  match argument with
  | VDate d => mkDate (getTime d)
  | VNumber n => mkDate n
  | _ => InvalidDate
  end.

Definition toInteger (dirtyNumber : number) : number := dirtyNumber.

Definition getTimezoneOffsetInMilliseconds (date : Date) : number :=
  match getTime date with
  | Int t => Int (- zone t)
  | NaN => NaN
  end.

Definition subMilliseconds (date : Date) (amount : number) : Date :=
  match getTime date, amount with
  | Int t, Int a => mkDate (Int (t - a))
  | _, _ => InvalidDate
  end.

(** The index of the local calendar day an instant falls on. *)
Definition calendarDay (date : Date) : number :=
  match getTime date with
  | Int t => Int ((t + zone t) / MILLISECONDS_IN_DAY)
  | NaN => NaN
  end.

Definition differenceInCalendarDays (dateLeft dateRight : Date) : number :=
  match calendarDay dateLeft, calendarDay dateRight with
  | Int l, Int r => Int (l - r)
  | _, _ => NaN
  end.

Definition decimalZ (z : Z) : string := NilZero.string_of_int (Z.to_int z).

(** Renders the pattern next to the time value; validates [weekStartsOn]
    and the date, as the generic formatter is specified to. *)
Definition format (date : Date) (formatStr : string) (o : Passed.t) : Completion string :=
  match Passed.weekStartsOn o, getTime date with
  | Int w, Int t =>
    if (0 <=? w) && (w <=? 6)
    then Return (formatStr ++ " @" ++ decimalZ t)%string
    else Throw (RangeError "weekStartsOn must be between 0 and 6 inclusively")
  | NaN, _ => Throw (RangeError "weekStartsOn must be between 0 and 6 inclusively")
  | _, NaN => Throw (RangeError "Invalid time value")
  end.

Definition patterns (token : FormatRelativeToken) : string :=
  match token with
  | lastWeek => "'last' eeee 'at' p"
  | yesterday => "'yesterday at' p"
  | today => "'today at' p"
  | tomorrow => "'tomorrow at' p"
  | nextWeek => "eeee 'at' p"
  | other => "P"
  end.

Definition apply_formatRelative (fn : FormatRelativeToken -> string)
    (token : FormatRelativeToken) (date baseDate : Date) (o : Passed.t) : Completion string :=
  Return (fn token).

#[global] Instance host : Host :=
  Build_Host realm
    toDate toInteger differenceInCalendarDays getTimezoneOffsetInMilliseconds
    subMilliseconds format apply_formatRelative
    tt tt patterns (Some {| LocaleOptions.weekStartsOn := Some (Int 0) |}).

(** No process-wide defaults set. *)
Definition fresh : Process :=
  {| defaultOptions := {| Options.locale := None; Options.weekStartsOn := None |} |}.

(** 2021-03-27 23:30 local time (UTC+1), the evening before the transition. *)
Definition before : Date := mkDate (Int 1616884200000).

(** 2021-03-28 23:30 local time (UTC+2): 23 hours later, on the next
    calendar day. *)
Definition after : Date := mkDate (Int 1616967000000).

(** A locale object without [formatRelative]. *)
Definition partial : Locale :=
  {| Locale.localize := Some tt;
     Locale.formatLong := Some tt;
     Locale.formatRelative := None;
     Locale.options := None |}.

Definition with_locale (l : Locale) : Value :=
  VOptions {| Options.locale := Some l; Options.weekStartsOn := None |}.

Definition with_weekStartsOn (w : Z) : Value :=
  VOptions {| Options.locale := None; Options.weekStartsOn := Some (Int w) |}.

(** [formatRelative(after, before)] *)
Definition across_transition : list Value := [VDate after; VDate before].

(** [formatRelative(new Date(NaN), before)] *)
Definition invalid_date : list Value := [VDate InvalidDate; VDate before].

(** [formatRelative(new Date(NaN), before, { locale: partial })] *)
Definition invalid_date_partial_locale : list Value :=
  [VDate InvalidDate; VDate before; with_locale partial].

(** [formatRelative(after, before, { locale: partial })] *)
Definition partial_locale : list Value := [VDate after; VDate before; with_locale partial].

(** [formatRelative(after)] *)
Definition one_argument : list Value := [VDate after].

(** [formatRelative(after, after, { weekStartsOn: 99 })] *)
Definition week_start_99 : list Value := [VDate after; VDate after; with_weekStartsOn 99].

(** A host whose locales' [formatRelative] throws instead of returning a
    pattern. *)
Definition failing_locale_host : Host :=
  Build_Host realm
    toDate toInteger differenceInCalendarDays getTimezoneOffsetInMilliseconds
    subMilliseconds format
    (fun fn token _ _ _ => Throw (RangeError (fn token)))
    tt tt patterns (Some {| LocaleOptions.weekStartsOn := Some (Int 0) |}).


(** A locale with its own week start, and process-wide defaults that set a
    week start and such a locale. *)
Definition monday_locale : Locale :=
  {| Locale.localize := Some tt;
     Locale.formatLong := Some tt;
     Locale.formatRelative := Some patterns;
     Locale.options := Some {| LocaleOptions.weekStartsOn := Some (Int 1) |} |}.

Definition configured : Process :=
  {| defaultOptions :=
       {| Options.locale := Some monday_locale; Options.weekStartsOn := Some (Int 6) |} |}.

End Sample.

(** ** The runs of formatRelative *)

(** Each of the six ways through the body, with the whole call log. *)
Section Runs.
Context {realm : Realm} {host : Host}.
Variables (process : Process) (arguments : list Value).

Let locale := locale_of process arguments.
Let date := date_of arguments.
Let baseDate := baseDate_of arguments.

Ltac start Hlen :=
  unfold formatRelative, requiredArgs, invoke_throwing;
  lazymatch type of Hlen with
  | (_ < _)%nat => apply Nat.ltb_lt in Hlen
  | (_ <= _)%nat => apply Nat.ltb_ge in Hlen
  end;
  rewrite Hlen; cbn;
  fold (locale_of process arguments).

Lemma run_too_few :
  (List.length arguments < 2)%nat ->
  formatRelative process arguments =
  ([call_requiredArgs 2 (List.length arguments)], Throw (TypeError "2 arguments required")).
Proof. intros Hlen. start Hlen. reflexivity. Qed.

Lemma run_no_localize :
  (2 <= List.length arguments)%nat ->
  Locale.localize locale = None ->
  formatRelative process arguments =
  (prelude process arguments
     ++ [throw_statement (RangeError "locale must contain localize property")],
   Throw (RangeError "locale must contain localize property")).
Proof. intros Hlen Hloc. start Hlen. unfold locale in Hloc. rewrite Hloc. reflexivity. Qed.

Lemma run_no_formatLong :
  (2 <= List.length arguments)%nat ->
  Locale.localize locale <> None ->
  Locale.formatLong locale = None ->
  formatRelative process arguments =
  (prelude process arguments
     ++ [throw_statement (RangeError "locale must contain formatLong property")],
   Throw (RangeError "locale must contain formatLong property")).
Proof.
  intros Hlen Hloc Hlong. start Hlen. unfold locale in *.
  destruct (Locale.localize _); [ | congruence ].
  rewrite Hlong. reflexivity.
Qed.

Lemma run_no_formatRelative :
  (2 <= List.length arguments)%nat ->
  Locale.localize locale <> None ->
  Locale.formatLong locale <> None ->
  Locale.formatRelative locale = None ->
  formatRelative process arguments =
  (prelude process arguments
     ++ [throw_statement (RangeError "locale must contain formatRelative property")],
   Throw (RangeError "locale must contain formatRelative property")).
Proof.
  intros Hlen Hloc Hlong Hrel. start Hlen. unfold locale in *.
  destruct (Locale.localize _); [ | congruence ].
  destruct (Locale.formatLong _); [ | congruence ].
  rewrite Hrel. reflexivity.
Qed.

Lemma run_invalid fn :
  (2 <= List.length arguments)%nat ->
  Locale.localize locale <> None ->
  Locale.formatLong locale <> None ->
  Locale.formatRelative locale = Some fn ->
  diff_of arguments = NaN ->
  formatRelative process arguments =
  (prelude process arguments
     ++ [call_differenceInCalendarDays date baseDate;
         throw_statement (RangeError "Invalid time value")],
   Throw (RangeError "Invalid time value")).
Proof.
  intros Hlen Hloc Hlong Hrel Hdiff. start Hlen. unfold locale in *.
  destruct (Locale.localize _); [ | congruence ].
  destruct (Locale.formatLong _); [ | congruence ].
  rewrite Hrel. cbn. unfold diff_of, date_of, baseDate_of in Hdiff.
  rewrite Hdiff. reflexivity.
Qed.

Lemma run_renders fn d :
  (2 <= List.length arguments)%nat ->
  Locale.localize locale <> None ->
  Locale.formatLong locale <> None ->
  Locale.formatRelative locale = Some fn ->
  diff_of arguments = Int d ->
  let utcDate := utcDate_of arguments in
  let utcBaseDate := utcBaseDate_of arguments in
  let passed := passed_of process arguments in
  let token := token_of_diff (Int d) in
  formatRelative process arguments =
  (prelude process arguments
     ++ [call_differenceInCalendarDays date baseDate;
         call_getTimezoneOffsetInMilliseconds date;
         call_subMilliseconds date (getTimezoneOffsetInMilliseconds date);
         call_getTimezoneOffsetInMilliseconds baseDate;
         call_subMilliseconds baseDate (getTimezoneOffsetInMilliseconds baseDate);
         call_locale_formatRelative fn token utcDate utcBaseDate passed]
     ++ match apply_formatRelative fn token utcDate utcBaseDate passed with
        | Return formatStr => [call_format date formatStr passed]
        | Throw _ => []
        end,
   match apply_formatRelative fn token utcDate utcBaseDate passed with
   | Return formatStr => format date formatStr passed
   | Throw e => Throw e
   end).
Proof.
  intros Hlen Hloc Hlong Hrel Hdiff. start Hlen. unfold locale in *.
  destruct (Locale.localize _); [ | congruence ].
  destruct (Locale.formatLong _); [ | congruence ].
  rewrite Hrel. cbn. unfold diff_of, date_of, baseDate_of in Hdiff.
  rewrite Hdiff. cbn -[token_of_diff].
  fold (date_of arguments) (baseDate_of arguments).
  fold (utcDate_of arguments) (utcBaseDate_of arguments).
  fold (weekStartsOn_of process arguments). fold (passed_of process arguments).
  destruct (apply_formatRelative _ _ _ _ _); reflexivity.
Qed.

End Runs.

(** ** Properties *)

Section Properties.
Context {realm : Realm} {host : Host}.
Variables (process : Process) (arguments : list Value).

Let locale := locale_of process arguments.

Ltac present H := let E := fresh in intro E; rewrite E in H; discriminate H.

(** The six runs, as a case analysis on a call. *)
Ltac six_runs :=
  let Hlen := fresh "Hlen" in
  let Hloc := fresh "Hloc" in
  let Hlong := fresh "Hlong" in
  let Hrel := fresh "Hrel" in
  let Hdiff := fresh "Hdiff" in
  let Hrun := fresh "Hrun" in
  let fn := fresh "fn" in
  let d := fresh "d" in
  destruct (le_lt_dec 2 (List.length arguments)) as [Hlen | Hlen];
  [ destruct (Locale.localize (locale_of process arguments)) eqn:Hloc;
    [ destruct (Locale.formatLong (locale_of process arguments)) eqn:Hlong;
      [ destruct (Locale.formatRelative (locale_of process arguments)) as [fn | ] eqn:Hrel;
        [ destruct (diff_of arguments) as [ | d ] eqn:Hdiff;
          [ pose proof (run_invalid process arguments fn Hlen
                          ltac:(present Hloc) ltac:(present Hlong) Hrel Hdiff) as Hrun
          | pose proof (run_renders process arguments fn d Hlen
                          ltac:(present Hloc) ltac:(present Hlong) Hrel Hdiff) as Hrun ]
        | pose proof (run_no_formatRelative process arguments Hlen
                        ltac:(present Hloc) ltac:(present Hlong) Hrel) as Hrun ]
      | pose proof (run_no_formatLong process arguments Hlen
                      ltac:(present Hloc) Hlong) as Hrun ]
    | pose proof (run_no_localize process arguments Hlen Hloc) as Hrun ]
  | pose proof (run_too_few process arguments Hlen) as Hrun ];
  cbv zeta in Hrun.

Lemma complete_inv (l : Locale) :
  complete l = true ->
  Locale.localize l <> None /\ Locale.formatLong l <> None /\
  exists fn, Locale.formatRelative l = Some fn.
Proof.
  unfold complete, missing. destruct l as [[?|] [?|] [fn|] ?]; cbn; try discriminate.
  intros _. repeat split; try discriminate. now exists fn.
Qed.

Lemma incomplete_inv (l : Locale) :
  complete l = false ->
  Locale.localize l = None
  \/ (Locale.localize l <> None /\ Locale.formatLong l = None)
  \/ (Locale.localize l <> None /\ Locale.formatLong l <> None
      /\ Locale.formatRelative l = None).
Proof.
  unfold complete, missing.
  destruct (Locale.localize l); [ | now left ].
  destruct (Locale.formatLong l); [ | right; left; split; congruence ].
  destruct (Locale.formatRelative l); [ discriminate | ].
  intros _. right; right. repeat split; congruence.
Qed.

Lemma token_of_diff_table (d : Z) : six_bucket_table d (token_of_diff (Int d)).
Proof.
  unfold six_bucket_table, token_of_diff, number_ltb.
  repeat match goal with
         | |- context [ (?a <? ?b)%Z ] => destruct (Z.ltb_spec a b)
         end; repeat split; intros; (reflexivity || lia).
Qed.

Lemma chosen_tokens_app (log log' : list Event) :
  chosen_tokens (log ++ log') = chosen_tokens log ++ chosen_tokens log'.
Proof.
  induction log as [ | e log IH ]; [ reflexivity | ].
  destruct e; cbn; rewrite IH; reflexivity.
Qed.

Lemma passed_options_app (log log' : list Event) :
  passed_options (log ++ log') = passed_options log ++ passed_options log'.
Proof.
  induction log as [ | e log IH ]; [ reflexivity | ].
  destruct e; cbn; rewrite IH; reflexivity.
Qed.

Lemma own_throws_app (log log' : list Event) :
  own_throws (log ++ log') = own_throws log ++ own_throws log'.
Proof.
  induction log as [ | e log IH ]; [ reflexivity | ].
  destruct e; cbn; rewrite IH; reflexivity.
Qed.

Lemma chosen_token_of_diff (token : FormatRelativeToken) :
  In token (chosen_tokens (calls (formatRelative process arguments))) ->
  exists d, diff_of arguments = Int d /\ token = token_of_diff (Int d).
Proof.
  six_runs; rewrite Hrun; unfold calls, prelude; cbn [fst];
    rewrite ?chosen_tokens_app; cbn [chosen_tokens app In];
    try (destruct (apply_formatRelative _ _ _ _ _); cbn [chosen_tokens app In]);
    intros Hin;
    repeat match type of Hin with
           | _ \/ _ => destruct Hin as [Hin | Hin]
           | False => destruct Hin
           end;
    exists d; (split; [ reflexivity | symmetry; exact Hin ]).
Qed.

(** C1. The token handed to the locale is a function of the integer
    calendar-day difference alone: whenever a token is chosen it is the one
    the cascade gives for the difference, every valid call chooses exactly
    that one, and the cascade is the six-bucket table: below -6 [other], from
    -6 to -2 [lastWeek], -1 [yesterday], 0 [today], 1 [tomorrow], from 2 to 6
    [nextWeek], 7 and above [other]; at the boundaries -7, -6, -1, 0, 1, 6
    and 7 it gives [other], [lastWeek], [yesterday], [today], [tomorrow],
    [nextWeek] and [other]. *)
Theorem token_is_cascade_of_diff :
  (valid_call process arguments ->
   exists d,
     diff_of arguments = Int d /\
     chosen_tokens (calls (formatRelative process arguments)) = [token_of_diff (Int d)]) /\
  (forall token,
      In token (chosen_tokens (calls (formatRelative process arguments))) ->
      exists d, diff_of arguments = Int d /\ token = token_of_diff (Int d)) /\
  (forall d, six_bucket_table d (token_of_diff (Int d))) /\
  token_of_diff (Int (-7)) = other /\
  token_of_diff (Int (-6)) = lastWeek /\
  token_of_diff (Int (-1)) = yesterday /\
  token_of_diff (Int 0) = today /\
  token_of_diff (Int 1) = tomorrow /\
  token_of_diff (Int 6) = nextWeek /\
  token_of_diff (Int 7) = other.
Proof.
  split; [ | split; [ exact chosen_token_of_diff | split; [ exact token_of_diff_table | ] ];
             repeat split ].
  intros (Hlen & Hcomplete & Hdiff).
  apply complete_inv in Hcomplete. destruct Hcomplete as (Hloc & Hlong & fn & Hrel).
  destruct (diff_of arguments) as [ | d ] eqn:Ed; [ discriminate | ].
  exists d. split; [ reflexivity | ].
  rewrite (run_renders process arguments fn d Hlen Hloc Hlong Hrel Ed).
  unfold calls. cbn [fst]. rewrite !chosen_tokens_app. cbn [prelude chosen_tokens app].
  destruct (apply_formatRelative _ _ _ _ _); reflexivity.
Qed.

Lemma difference_is_computed_last dateLeft dateRight :
  In (call_differenceInCalendarDays dateLeft dateRight)
     (calls (formatRelative process arguments)) ->
  (2 <= List.length arguments)%nat /\ complete locale = true /\
  dateLeft = date_of arguments /\ dateRight = baseDate_of arguments.
Proof.
  unfold locale, complete.
  six_runs; rewrite Hrun; unfold calls, prelude; cbn [fst app In];
    try (destruct (apply_formatRelative _ _ _ _ _); cbn [app In]);
    intros Hin;
    repeat match type of Hin with
           | _ \/ _ => destruct Hin as [Hin | Hin]
           | False => destruct Hin
           | _ = _ => first [ discriminate Hin | injection Hin as <- <- ]
           end;
    rewrite ?Hloc, ?Hlong, ?Hrel; repeat split; assumption.
Qed.

(** C2. When the coercion of [date] or of [baseDate] yields an invalid
    instant, so that [differenceInCalendarDays] gives not-a-number,
    [formatRelative] returns no string; once the difference is computed it
    raises [RangeError] "Invalid time value", which is the case in every call
    with two arguments and a locale that has the three properties. *)
Theorem invalid_instant_raises_invalid_time_value :
  difference_of_invalid_is_NaN ->
  isNaN (getTime (date_of arguments)) = true
  \/ isNaN (getTime (baseDate_of arguments)) = true ->
  (forall s, completion (formatRelative process arguments) <> Return s) /\
  (forall dateLeft dateRight,
      In (call_differenceInCalendarDays dateLeft dateRight)
         (calls (formatRelative process arguments)) ->
      completion (formatRelative process arguments)
      = Throw (RangeError "Invalid time value")) /\
  ((2 <= List.length arguments)%nat ->
   complete locale = true ->
   formatRelative process arguments =
   (prelude process arguments
      ++ [call_differenceInCalendarDays (date_of arguments) (baseDate_of arguments);
          throw_statement (RangeError "Invalid time value")],
    Throw (RangeError "Invalid time value"))).
Proof.
  intros Hcontract Hinvalid.
  assert (Hnan : diff_of arguments = NaN) by (apply Hcontract; exact Hinvalid).
  assert (Hthird : (2 <= List.length arguments)%nat ->
                   complete locale = true ->
                   formatRelative process arguments =
                   (prelude process arguments
                      ++ [call_differenceInCalendarDays (date_of arguments)
                            (baseDate_of arguments);
                          throw_statement (RangeError "Invalid time value")],
                    Throw (RangeError "Invalid time value"))).
  { intros Hlen Hcomplete.
    apply complete_inv in Hcomplete. destruct Hcomplete as (Hloc & Hlong & fn & Hrel).
    exact (run_invalid process arguments fn Hlen Hloc Hlong Hrel Hnan). }
  split; [ | split; [ | exact Hthird ] ].
  - intros s. six_runs; rewrite Hrun; cbn; discriminate.
  - intros dateLeft dateRight Hin.
    apply difference_is_computed_last in Hin. destruct Hin as (Hlen & Hcomplete & _).
    rewrite (Hthird Hlen Hcomplete). reflexivity.
Qed.

(** C3. In a call with two arguments the resolved locale goes through three
    presence checks, for [localize], [formatLong] and [formatRelative] in
    that order; the first property found missing raises a [RangeError] that
    names it, and the three messages differ. A locale that has [localize]
    and [formatLong] but no [formatRelative] raises "locale must contain
    formatRelative property". *)
Theorem missing_capability_is_named :
  (2 <= List.length arguments)%nat ->
  (Locale.localize locale = None ->
   completion (formatRelative process arguments)
   = Throw (RangeError "locale must contain localize property")) /\
  (Locale.localize locale <> None ->
   Locale.formatLong locale = None ->
   completion (formatRelative process arguments)
   = Throw (RangeError "locale must contain formatLong property")) /\
  (Locale.localize locale <> None ->
   Locale.formatLong locale <> None ->
   Locale.formatRelative locale = None ->
   completion (formatRelative process arguments)
   = Throw (RangeError "locale must contain formatRelative property")) /\
  RangeError "locale must contain localize property"
  <> RangeError "locale must contain formatLong property" /\
  RangeError "locale must contain localize property"
  <> RangeError "locale must contain formatRelative property" /\
  RangeError "locale must contain formatLong property"
  <> RangeError "locale must contain formatRelative property".
Proof.
  intros Hlen. repeat split; try discriminate.
  - intros Hloc. now rewrite run_no_localize.
  - intros Hloc Hlong. now rewrite run_no_formatLong.
  - intros Hloc Hlong Hrel. now rewrite run_no_formatRelative.
Qed.

(** C4. A call with fewer than two arguments raises the arity error, and
    the only call it has made by then is the one to [requiredArgs]: no
    argument has been coerced by [toDate]. *)
Theorem too_few_arguments_raise_before_coercion :
  (List.length arguments < 2)%nat ->
  completion (formatRelative process arguments)
  = Throw (TypeError "2 arguments required") /\
  calls (formatRelative process arguments)
  = [call_requiredArgs 2 (List.length arguments)] /\
  coerced (calls (formatRelative process arguments)) = [].
Proof.
  intros Hlen. rewrite run_too_few by assumption. repeat split.
Qed.

Lemma dirty_weekStartsOn_first_defined :
  dirty_weekStartsOn (options arguments) (defaultOptions process)
  = coalesce_value (first_defined (priority_chain process arguments)) (Int 0).
Proof.
  unfold dirty_weekStartsOn, priority_chain, first_defined, coalesce, coalesce_value.
  destruct (chain (options arguments) Options.weekStartsOn); [ reflexivity | ].
  destruct (chain (chain (chain (options arguments) Options.locale) Locale.options)
              LocaleOptions.weekStartsOn); [ reflexivity | ].
  destruct (Options.weekStartsOn (defaultOptions process)); [ reflexivity | ].
  destruct (chain (chain (Options.locale (defaultOptions process)) Locale.options)
              LocaleOptions.weekStartsOn); reflexivity.
Qed.

Lemma passed_weekStartsOn (o : Passed.t) :
  In o (passed_options (calls (formatRelative process arguments))) ->
  o = passed_of process arguments.
Proof.
  six_runs; rewrite Hrun; unfold calls, prelude; cbn [fst];
    rewrite ?passed_options_app; cbn [passed_options app In];
    try (destruct (apply_formatRelative _ _ _ _ _); cbn [passed_options app In]);
    intuition.
Qed.

Lemma own_throws_listed (e : Error) :
  In e (own_throws (calls (formatRelative process arguments))) ->
  In e [ RangeError "locale must contain localize property";
         RangeError "locale must contain formatLong property";
         RangeError "locale must contain formatRelative property";
         RangeError "Invalid time value" ].
Proof.
  six_runs; rewrite Hrun; unfold calls, prelude; cbn [fst];
    rewrite ?own_throws_app; cbn [own_throws app In];
    try (destruct (apply_formatRelative _ _ _ _ _); cbn [own_throws app In]);
    intuition.
Qed.

(** C5. The week start in effect is [toInteger] of the first defined value
    among the explicit [weekStartsOn] option, the configured default of the
    locale given in the options, the process-wide default [weekStartsOn],
    the configured default of the process-wide default locale, and else of
    the literal 0: a call with two arguments coerces exactly that value, and
    every object handed on to the locale or to [format] carries the result. *)
Theorem weekStartsOn_priority_chain :
  weekStartsOn_of process arguments
  = toInteger (coalesce_value (first_defined (priority_chain process arguments)) (Int 0)) /\
  ((2 <= List.length arguments)%nat ->
   In (call_toInteger
         (coalesce_value (first_defined (priority_chain process arguments)) (Int 0)))
      (calls (formatRelative process arguments))) /\
  (forall o,
      In o (passed_options (calls (formatRelative process arguments))) ->
      Passed.weekStartsOn o
      = toInteger (coalesce_value (first_defined (priority_chain process arguments)) (Int 0))).
Proof.
  rewrite <- dirty_weekStartsOn_first_defined. split; [ reflexivity | split ].
  - intros Hlen'.
    six_runs; try lia; rewrite Hrun; unfold calls, prelude; cbn [fst app In]; auto 6.
  - intros o Hin. apply passed_weekStartsOn in Hin. subst o. reflexivity.
Qed.

(** C6. In a valid call [formatRelative] computes the calendar-day
    difference of the two dates as they are, then shifts each date by its
    own timezone offset, hands the token for that difference and the two
    shifted dates to the locale's [formatRelative], and renders the pattern
    it gets back with [format] on the original [date]. *)
Theorem renders_original_date_with_pattern_for_utc_dates :
  valid_call process arguments ->
  exists fn d,
    Locale.formatRelative locale = Some fn /\
    diff_of arguments = Int d /\
    formatRelative process arguments =
    (prelude process arguments
       ++ [call_differenceInCalendarDays (date_of arguments) (baseDate_of arguments);
           call_getTimezoneOffsetInMilliseconds (date_of arguments);
           call_subMilliseconds (date_of arguments)
             (getTimezoneOffsetInMilliseconds (date_of arguments));
           call_getTimezoneOffsetInMilliseconds (baseDate_of arguments);
           call_subMilliseconds (baseDate_of arguments)
             (getTimezoneOffsetInMilliseconds (baseDate_of arguments));
           call_locale_formatRelative fn (token_of_diff (Int d))
             (subMilliseconds (date_of arguments)
                (getTimezoneOffsetInMilliseconds (date_of arguments)))
             (subMilliseconds (baseDate_of arguments)
                (getTimezoneOffsetInMilliseconds (baseDate_of arguments)))
             (passed_of process arguments)]
       ++ match
            apply_formatRelative fn (token_of_diff (Int d))
              (subMilliseconds (date_of arguments)
                 (getTimezoneOffsetInMilliseconds (date_of arguments)))
              (subMilliseconds (baseDate_of arguments)
                 (getTimezoneOffsetInMilliseconds (baseDate_of arguments)))
              (passed_of process arguments)
          with
          | Return formatStr =>
            [call_format (date_of arguments) formatStr (passed_of process arguments)]
          | Throw _ => []
          end,
     match
       apply_formatRelative fn (token_of_diff (Int d))
         (subMilliseconds (date_of arguments)
            (getTimezoneOffsetInMilliseconds (date_of arguments)))
         (subMilliseconds (baseDate_of arguments)
            (getTimezoneOffsetInMilliseconds (baseDate_of arguments)))
         (passed_of process arguments)
     with
     | Return formatStr => format (date_of arguments) formatStr (passed_of process arguments)
     | Throw e => Throw e
     end).
Proof.
  intros (Hlen & Hcomplete & Hdiff).
  apply complete_inv in Hcomplete. destruct Hcomplete as (Hloc & Hlong & fn & Hrel).
  destruct (diff_of arguments) as [ | d ] eqn:Ed; [ discriminate | ].
  exists fn, d. split; [ exact Hrel | ]. split; [ reflexivity | ].
  exact (run_renders process arguments fn d Hlen Hloc Hlong Hrel Ed).
Qed.

(** C8. [formatRelative] does not validate the week start: whatever
    [toInteger] returns is the [weekStartsOn] of every object handed to the
    locale's [formatRelative] and to [format]; the only errors its own
    [throw] statements raise are the three missing-property errors and
    "Invalid time value"; and a valid call hands the value on and ends the
    way the locale's function and [format] end. *)
Theorem weekStartsOn_is_passed_through_unvalidated :
  (forall o,
      In o (passed_options (calls (formatRelative process arguments))) ->
      Passed.weekStartsOn o = weekStartsOn_of process arguments) /\
  (forall e,
      In e (own_throws (calls (formatRelative process arguments))) ->
      In e [ RangeError "locale must contain localize property";
             RangeError "locale must contain formatLong property";
             RangeError "locale must contain formatRelative property";
             RangeError "Invalid time value" ]) /\
  (valid_call process arguments ->
   exists fn token,
     Locale.formatRelative locale = Some fn /\
     In (call_locale_formatRelative fn token (utcDate_of arguments) (utcBaseDate_of arguments)
           {| Passed.locale := locale;
              Passed.weekStartsOn := weekStartsOn_of process arguments |})
        (calls (formatRelative process arguments)) /\
     own_throws (calls (formatRelative process arguments)) = [] /\
     completion (formatRelative process arguments)
     = match
         apply_formatRelative fn token (utcDate_of arguments) (utcBaseDate_of arguments)
           {| Passed.locale := locale;
              Passed.weekStartsOn := weekStartsOn_of process arguments |}
       with
       | Return formatStr =>
         format (date_of arguments) formatStr
           {| Passed.locale := locale;
              Passed.weekStartsOn := weekStartsOn_of process arguments |}
       | Throw e => Throw e
       end).
Proof.
  split; [ | split ].
  - intros o Hin. apply passed_weekStartsOn in Hin. subst o. reflexivity.
  - exact own_throws_listed.
  - intros (Hlen & Hcomplete & Hdiff).
    apply complete_inv in Hcomplete. destruct Hcomplete as (Hloc & Hlong & fn & Hrel).
    destruct (diff_of arguments) as [ | d ] eqn:Ed; [ discriminate | ].
    exists fn, (token_of_diff (Int d)). split; [ exact Hrel | ].
    rewrite (run_renders process arguments fn d Hlen Hloc Hlong Hrel Ed).
    unfold calls, completion. cbn [fst snd].
    fold (passed_of process arguments).
    split; [ | split ].
    + apply in_or_app. right. apply in_or_app. left. cbn. auto 8.
    + rewrite !own_throws_app. cbn [prelude own_throws app].
      destruct (apply_formatRelative _ _ _ _ _); reflexivity.
    + reflexivity.
Qed.

(** C9. The checks run in the order arity, [localize], [formatLong],
    [formatRelative], not-a-number difference: the call ends with the error
    of the first check that applies, and when none applies the call is valid
    and no [throw] statement of the body runs. So an unparseable date with a
    locale that lacks [formatRelative] raises the missing-property error,
    not "Invalid time value". *)
Theorem first_applicable_error_is_raised :
  match first_applicable (checks process arguments) with
  | Some e => completion (formatRelative process arguments) = Throw e
  | None =>
    valid_call process arguments /\
    own_throws (calls (formatRelative process arguments)) = []
  end /\
  ((2 <= List.length arguments)%nat ->
   Locale.localize locale <> None ->
   Locale.formatLong locale <> None ->
   Locale.formatRelative locale = None ->
   isNaN (diff_of arguments) = true ->
   completion (formatRelative process arguments)
   = Throw (RangeError "locale must contain formatRelative property")).
Proof.
  split.
  - unfold checks, valid_call, complete.
    six_runs; rewrite Hrun;
      [ | | | | | apply Nat.ltb_lt in Hlen; rewrite Hlen; reflexivity ];
      pose proof Hlen as Hlen'; apply Nat.ltb_ge in Hlen'; rewrite Hlen';
      rewrite ?Hloc, ?Hlong, ?Hrel, ?Hdiff; cbn [first_applicable missing isNaN];
      try reflexivity.
    unfold calls. cbn [fst negb andb]. rewrite !own_throws_app. cbn [prelude own_throws app].
    repeat split; try assumption.
    destruct (apply_formatRelative _ _ _ _ _); reflexivity.
  - intros Hlen Hloc Hlong Hrel _. now rewrite run_no_formatRelative.
Qed.

(** C10. With no [locale] in the options and none in the process-wide
    defaults the resolved locale is the built-in default locale, which has
    [localize], [formatLong] and [formatRelative]: the only [throw]
    statement of the body that can run is the one for "Invalid time value". *)
Theorem default_locale_has_all_capabilities :
  chain (options arguments) Options.locale = None ->
  Options.locale (defaultOptions process) = None ->
  locale = defaultLocale /\
  complete defaultLocale = true /\
  (forall e,
      In e (own_throws (calls (formatRelative process arguments))) ->
      e = RangeError "Invalid time value").
Proof.
  intros Hoptions Hdefaults.
  assert (Hdefault : locale_of process arguments = defaultLocale).
  { unfold locale_of, resolved_locale. rewrite Hoptions, Hdefaults. reflexivity. }
  split; [ exact Hdefault | ]. split; [ reflexivity | ].
  intros e.
  six_runs; rewrite Hrun; unfold calls, prelude; cbn [fst];
    rewrite ?own_throws_app; cbn [own_throws app In];
    try (destruct (apply_formatRelative _ _ _ _ _); cbn [own_throws app In]);
    try (rewrite Hdefault in *; discriminate);
    intuition.
Qed.

End Properties.

Section SameInstant.
Context {realm : Realm} {host : Host}.
Variables (process : Process) (d : Value) (more : list Value).

(** C7. With [date] and [baseDate] both the same valid instant the
    calendar-day difference is 0, so the only token [formatRelative] can hand
    to the locale is [today]; with a locale that has the three properties it
    does, and the result is the rendering of the pattern the locale gives for
    [today]. *)
Theorem same_instant_is_today :
  difference_of_same_is_zero ->
  isNaN (getTime (toDate d)) = false ->
  diff_of (d :: d :: more) = Int 0 /\
  (forall token,
      In token (chosen_tokens (calls (formatRelative process (d :: d :: more)))) ->
      token = today) /\
  (complete (locale_of process (d :: d :: more)) = true ->
   exists fn,
     Locale.formatRelative (locale_of process (d :: d :: more)) = Some fn /\
     chosen_tokens (calls (formatRelative process (d :: d :: more))) = [today] /\
     completion (formatRelative process (d :: d :: more))
     = match
         apply_formatRelative fn today
           (utcDate_of (d :: d :: more)) (utcBaseDate_of (d :: d :: more))
           (passed_of process (d :: d :: more))
       with
       | Return formatStr => format (toDate d) formatStr (passed_of process (d :: d :: more))
       | Throw e => Throw e
       end).
Proof.
  intros Hcontract Hvalid.
  assert (Hdiff : diff_of (d :: d :: more) = Int 0) by (apply Hcontract; exact Hvalid).
  split; [ exact Hdiff | split ].
  - intros token Hin. apply chosen_token_of_diff in Hin.
    destruct Hin as (d' & Hd' & ->). rewrite Hdiff in Hd'. injection Hd' as <-. reflexivity.
  - intros Hcomplete.
    apply complete_inv in Hcomplete. destruct Hcomplete as (Hloc & Hlong & fn & Hrel).
    assert (Hlen : (2 <= List.length (d :: d :: more))%nat) by (cbn; lia).
    exists fn. split; [ exact Hrel | ].
    rewrite (run_renders process (d :: d :: more) fn 0 Hlen Hloc Hlong Hrel Hdiff).
    unfold calls, completion. cbn [fst snd]. split; [ | reflexivity ].
    rewrite !chosen_tokens_app. cbn [prelude chosen_tokens app].
    destruct (apply_formatRelative _ _ _ _ _); reflexivity.
Qed.

End SameInstant.

(** ** The sample host meets the contracts *)

Lemma Sample_difference_of_invalid_is_NaN : difference_of_invalid_is_NaN.
Proof.
  intros [[ | l ]] [[ | r ]] [ Hnan | Hnan ]; cbn in Hnan; try discriminate; reflexivity.
Qed.

Lemma Sample_difference_of_same_is_zero : difference_of_same_is_zero.
Proof.
  intros [[ | t ]] Hvalid; cbn in Hvalid; [ discriminate | ].
  cbn. unfold Sample.differenceInCalendarDays, Sample.calendarDay. cbn.
  now rewrite Z.sub_diag.
Qed.

(** ** Concrete calls *)

(** [formatRelative(after, before)], 23 hours apart across the transition, is
    a valid call whose token is [tomorrow]. *)
Lemma token_is_cascade_of_diff_witness :
  valid_call Sample.fresh Sample.across_transition /\
  chosen_tokens (calls (formatRelative Sample.fresh Sample.across_transition)) = [tomorrow].
Proof.
  assert (Hvalid : valid_call Sample.fresh Sample.across_transition)
    by (repeat split; cbn; lia).
  split; [ exact Hvalid | ].
  destruct (token_is_cascade_of_diff Sample.fresh Sample.across_transition) as (Hchosen & _).
  destruct (Hchosen Hvalid) as (d & Hdiff & Htoken).
  rewrite Htoken. injection Hdiff as <-. reflexivity.
Defined.

(** [formatRelative(new Date(NaN), before)] raises "Invalid time value". *)
Lemma invalid_instant_raises_invalid_time_value_witness :
  difference_of_invalid_is_NaN /\
  (isNaN (getTime (date_of Sample.invalid_date)) = true
   \/ isNaN (getTime (baseDate_of Sample.invalid_date)) = true) /\
  completion (formatRelative Sample.fresh Sample.invalid_date)
  = Throw (RangeError "Invalid time value").
Proof.
  assert (Hinvalid : isNaN (getTime (date_of Sample.invalid_date)) = true
                     \/ isNaN (getTime (baseDate_of Sample.invalid_date)) = true)
    by (left; reflexivity).
  split; [ exact Sample_difference_of_invalid_is_NaN | ]. split; [ exact Hinvalid | ].
  destruct (invalid_instant_raises_invalid_time_value Sample.fresh Sample.invalid_date
              Sample_difference_of_invalid_is_NaN Hinvalid) as (_ & _ & Hrun).
  rewrite Hrun; [ reflexivity | cbn; lia | reflexivity ].
Defined.

(** [formatRelative(after, before, { locale: partial })] names the missing
    [formatRelative]. *)
Lemma missing_capability_is_named_witness :
  (2 <= List.length Sample.partial_locale)%nat /\
  completion (formatRelative Sample.fresh Sample.partial_locale)
  = Throw (RangeError "locale must contain formatRelative property").
Proof.
  assert (Hlen : (2 <= List.length Sample.partial_locale)%nat) by (cbn; lia).
  split; [ exact Hlen | ].
  destruct (missing_capability_is_named Sample.fresh Sample.partial_locale Hlen)
    as (_ & _ & Hrel & _).
  apply Hrel; [ discriminate | discriminate | reflexivity ].
Defined.

(** [formatRelative(after)] raises the arity error without coercing [after]. *)
Lemma too_few_arguments_raise_before_coercion_witness :
  (List.length Sample.one_argument < 2)%nat /\
  completion (formatRelative Sample.fresh Sample.one_argument)
  = Throw (TypeError "2 arguments required") /\
  coerced (calls (formatRelative Sample.fresh Sample.one_argument)) = [].
Proof.
  assert (Hlen : (List.length Sample.one_argument < 2)%nat) by (cbn; lia).
  split; [ exact Hlen | ].
  destruct (too_few_arguments_raise_before_coercion Sample.fresh Sample.one_argument Hlen)
    as (Hthrow & _ & Hcoerced).
  split; assumption.
Defined.

(** With a process-wide week start of 6 and a process-wide locale whose own
    week start is 1, [formatRelative(after, before)] uses 6. *)
Lemma weekStartsOn_priority_chain_witness :
  (2 <= List.length Sample.across_transition)%nat /\
  In (call_toInteger (Int 6)) (calls (formatRelative Sample.configured Sample.across_transition)).
Proof.
  assert (Hlen : (2 <= List.length Sample.across_transition)%nat) by (cbn; lia).
  split; [ exact Hlen | ].
  destruct (weekStartsOn_priority_chain Sample.configured Sample.across_transition)
    as (_ & Hcall & _).
  exact (Hcall Hlen).
Defined.

(** [formatRelative(after, before)]: the pattern is asked for with the two
    dates shifted by two hours and by one hour, and rendered on [after]. *)
Lemma renders_original_date_with_pattern_for_utc_dates_witness :
  valid_call Sample.fresh Sample.across_transition /\
  utcDate_of Sample.across_transition = mkDate (Int (1616967000000 + 7200000)) /\
  utcBaseDate_of Sample.across_transition = mkDate (Int (1616884200000 + 3600000)) /\
  completion (formatRelative Sample.fresh Sample.across_transition)
  = Return "'tomorrow at' p @1616967000000".
Proof.
  assert (Hvalid : valid_call Sample.fresh Sample.across_transition)
    by (repeat split; cbn; lia).
  split; [ exact Hvalid | ]. split; [ reflexivity | ]. split; [ reflexivity | ].
  destruct (renders_original_date_with_pattern_for_utc_dates
              Sample.fresh Sample.across_transition Hvalid)
    as (fn & d & Hrel & Hdiff & Hrun).
  rewrite Hrun. injection Hrel as <-. injection Hdiff as <-. reflexivity.
Defined.

(** [formatRelative(after, after)] asks for the pattern of [today]. *)
Lemma same_instant_is_today_witness :
  difference_of_same_is_zero /\
  isNaN (getTime (toDate (VDate Sample.after))) = false /\
  complete (locale_of Sample.fresh [VDate Sample.after; VDate Sample.after]) = true /\
  chosen_tokens (calls (formatRelative Sample.fresh [VDate Sample.after; VDate Sample.after]))
  = [today].
Proof.
  split; [ exact Sample_difference_of_same_is_zero | ].
  split; [ reflexivity | ]. split; [ reflexivity | ].
  destruct (same_instant_is_today Sample.fresh (VDate Sample.after) []
              Sample_difference_of_same_is_zero eq_refl)
    as (_ & _ & Hrun).
  destruct (Hrun eq_refl) as (fn & _ & Htoken & _).
  exact Htoken.
Defined.

(** [formatRelative(after, after, { weekStartsOn: 99 })] hands 99 on; the
    range error comes from [format]. *)
Lemma weekStartsOn_is_passed_through_unvalidated_witness :
  valid_call Sample.fresh Sample.week_start_99 /\
  weekStartsOn_of Sample.fresh Sample.week_start_99 = Int 99 /\
  own_throws (calls (formatRelative Sample.fresh Sample.week_start_99)) = [] /\
  completion (formatRelative Sample.fresh Sample.week_start_99)
  = Throw (RangeError "weekStartsOn must be between 0 and 6 inclusively").
Proof.
  assert (Hvalid : valid_call Sample.fresh Sample.week_start_99)
    by (repeat split; cbn; lia).
  split; [ exact Hvalid | ]. split; [ reflexivity | ].
  destruct (weekStartsOn_is_passed_through_unvalidated Sample.fresh Sample.week_start_99)
    as (_ & _ & Hrun).
  destruct (Hrun Hvalid) as (fn & token & Hrel & _ & Hown & Hcompletion).
  split; [ exact Hown | ].
  rewrite Hcompletion. injection Hrel as <-. reflexivity.
Defined.

(** [formatRelative(new Date(NaN), before, { locale: partial })] raises the
    missing-property error. *)
Lemma first_applicable_error_is_raised_witness :
  isNaN (diff_of Sample.invalid_date_partial_locale) = true /\
  completion (formatRelative Sample.fresh Sample.invalid_date_partial_locale)
  = Throw (RangeError "locale must contain formatRelative property").
Proof.
  split; [ reflexivity | ].
  destruct (first_applicable_error_is_raised Sample.fresh Sample.invalid_date_partial_locale)
    as (_ & Hexample).
  apply Hexample; [ cbn; lia | discriminate | discriminate | reflexivity | reflexivity ].
Defined.

(** [formatRelative(after, before)] with no defaults set resolves to the
    built-in locale. *)
Lemma default_locale_has_all_capabilities_witness :
  chain (options Sample.across_transition) Options.locale = None /\
  Options.locale (defaultOptions Sample.fresh) = None /\
  locale_of Sample.fresh Sample.across_transition = defaultLocale /\
  complete (locale_of Sample.fresh Sample.across_transition) = true.
Proof.
  split; [ reflexivity | ]. split; [ reflexivity | ].
  destruct (default_locale_has_all_capabilities Sample.fresh Sample.across_transition
              eq_refl eq_refl) as (Hlocale & Hcomplete & _).
  split; [ exact Hlocale | ]. rewrite Hlocale. exact Hcomplete.
Defined.

(** ** Further properties of the body *)

(** The six runs of a call, as a case analysis. *)
Ltac runs_of process arguments :=
  let Hlen := fresh "Hlen" in
  let Hloc := fresh "Hloc" in
  let Hlong := fresh "Hlong" in
  let Hrel := fresh "Hrel" in
  let Hdiff := fresh "Hdiff" in
  let Hrun := fresh "Hrun" in
  let fn := fresh "fn" in
  let d := fresh "d" in
  let present H := (let E := fresh in intro E; rewrite E in H; discriminate H) in
  destruct (le_lt_dec 2 (List.length arguments)) as [Hlen | Hlen];
  [ destruct (Locale.localize (locale_of process arguments)) eqn:Hloc;
    [ destruct (Locale.formatLong (locale_of process arguments)) eqn:Hlong;
      [ destruct (Locale.formatRelative (locale_of process arguments)) as [fn | ] eqn:Hrel;
        [ destruct (diff_of arguments) as [ | d ] eqn:Hdiff;
          [ pose proof (run_invalid process arguments fn Hlen
                          ltac:(present Hloc) ltac:(present Hlong) Hrel Hdiff) as Hrun
          | pose proof (run_renders process arguments fn d Hlen
                          ltac:(present Hloc) ltac:(present Hlong) Hrel Hdiff) as Hrun ]
        | pose proof (run_no_formatRelative process arguments Hlen
                        ltac:(present Hloc) ltac:(present Hlong) Hrel) as Hrun ]
      | pose proof (run_no_formatLong process arguments Hlen
                      ltac:(present Hloc) Hlong) as Hrun ]
    | pose proof (run_no_localize process arguments Hlen Hloc) as Hrun ]
  | pose proof (run_too_few process arguments Hlen) as Hrun ];
  cbv zeta in Hrun.

Section Cascade.

(** X1. The token tells the bucket: [token_of_diff] gives a token exactly for the
    differences of that token's bucket. *)
Theorem token_of_diff_bucket (d : Z) (token : FormatRelativeToken) :
  token_of_diff (Int d) = token <-> bucket token d.
Proof.
  unfold token_of_diff, number_ltb.
  repeat match goal with
         | |- context [ (?a <? ?b)%Z ] => destruct (Z.ltb_spec a b)
         end;
    destruct token; cbn [bucket]; split; intros Hyp; try discriminate Hyp;
    first [ reflexivity | lia ].
Qed.

(** X2. Swapping the two dates, which negates an integer difference, mirrors the
    token: [lastWeek] and [nextWeek], [yesterday] and [tomorrow] change
    places, [today] and [other] stay. *)
Theorem token_of_diff_mirror (d : Z) :
  token_of_diff (Int (- d)) = mirror (token_of_diff (Int d)).
Proof.
  unfold token_of_diff, number_ltb.
  repeat match goal with
         | |- context [ (?a <? ?b)%Z ] => destruct (Z.ltb_spec a b)
         end; first [ reflexivity | lia ].
Qed.

End Cascade.

Section Body.
Context {realm : Realm} {host : Host}.
Variables (process : Process) (arguments : list Value).

Lemma coerced_app (log log' : list Event) :
  coerced (log ++ log') = coerced log ++ coerced log'.
Proof.
  induction log as [ | e log IH ]; [ reflexivity | ].
  destruct e; cbn; rewrite IH; reflexivity.
Qed.

(** X3. Both date arguments are coerced, [date] first, in every call that passes
    the arity check, also in one that then fails on its locale or on an
    invalid date; no other value is ever coerced. *)
Theorem two_arguments_are_coerced_in_order :
  (2 <= List.length arguments)%nat ->
  coerced (calls (formatRelative process arguments))
  = [dirtyDate arguments; dirtyBaseDate arguments].
Proof.
  intros Hlen'.
  runs_of process arguments; try lia; rewrite Hrun; unfold calls; cbn [fst];
    rewrite !coerced_app; cbn [prelude coerced app];
    try (destruct (apply_formatRelative _ _ _ _ _)); reflexivity.
Qed.

(** X4. A string is returned exactly by a valid call in which the locale's
    [formatRelative] returns a pattern for the token of the difference and
    [format], applied to the original date and that pattern, returns the
    string. *)
Theorem returns_what_format_returns (s : string) :
  completion (formatRelative process arguments) = Return s <->
  valid_call process arguments /\
  exists fn formatStr,
    Locale.formatRelative (locale_of process arguments) = Some fn /\
    apply_formatRelative fn (token_of_diff (diff_of arguments))
      (utcDate_of arguments) (utcBaseDate_of arguments) (passed_of process arguments)
    = Return formatStr /\
    format (date_of arguments) formatStr (passed_of process arguments) = Return s.
Proof.
  split.
  - runs_of process arguments; rewrite Hrun; unfold completion; cbn [snd];
      try discriminate.
    destruct (apply_formatRelative _ _ _ _ _) as [ formatStr | ] eqn:Hcall;
      [ | discriminate ].
    intros Hformat. split.
    + unfold valid_call, complete. rewrite Hloc, Hlong, Hrel, Hdiff. repeat split. exact Hlen.
    + exists fn, formatStr. repeat split; assumption.
  - intros ((Hlen & Hcomplete & Hdiff) & fn & formatStr & Hrel & Hcall & Hformat).
    apply complete_inv in Hcomplete. destruct Hcomplete as (Hloc & Hlong & fn' & Hrel').
    destruct (diff_of arguments) as [ | d ] eqn:Ed; [ discriminate | ].
    rewrite (run_renders process arguments fn d Hlen Hloc Hlong Hrel Ed).
    unfold completion. cbn [snd]. rewrite Hcall. exact Hformat.
Qed.

(** X5. The locale's [formatRelative] and [format] are called only in a valid
    call, and the locale they are handed is the resolved one, with its three
    properties. *)
Theorem callees_get_a_complete_locale (o : Passed.t) :
  In o (passed_options (calls (formatRelative process arguments))) ->
  valid_call process arguments /\
  Passed.locale o = locale_of process arguments /\
  complete (Passed.locale o) = true.
Proof.
  unfold valid_call, complete.
  runs_of process arguments; rewrite Hrun; unfold calls, prelude; cbn [fst];
    rewrite ?passed_options_app; cbn [passed_options app In];
    try (destruct (apply_formatRelative _ _ _ _ _); cbn [passed_options app In]);
    intros Hin;
    repeat match type of Hin with
           | _ \/ _ => destruct Hin as [Hin | Hin]
           | False => destruct Hin
           end;
    subst o; cbn [passed_of Passed.locale]; rewrite Hloc, Hlong, Hrel;
    repeat split; assumption.
Qed.

(** X6. Whenever [format] is called, it is on the original date, with the pattern
    the locale's [formatRelative] returned for the token of the difference,
    and the call ends the way [format] ends. *)
Theorem format_call_decides (date : Date) (formatStr : string) (o : Passed.t) :
  In (call_format date formatStr o) (calls (formatRelative process arguments)) ->
  date = date_of arguments /\
  o = passed_of process arguments /\
  (exists fn,
      Locale.formatRelative (locale_of process arguments) = Some fn /\
      apply_formatRelative fn (token_of_diff (diff_of arguments))
        (utcDate_of arguments) (utcBaseDate_of arguments) o
      = Return formatStr) /\
  completion (formatRelative process arguments) = format date formatStr o.
Proof.
  runs_of process arguments; rewrite Hrun; unfold calls, completion, prelude; cbn [fst snd];
    cbn [app In];
    try (destruct (apply_formatRelative _ _ _ _ _) as [ pattern | ] eqn:Hcall; cbn [app In]);
    intros Hin;
    repeat match type of Hin with
           | _ \/ _ => destruct Hin as [Hin | Hin]
           | False => destruct Hin
           | _ = _ => first [ discriminate Hin | injection Hin as <- <- <- ]
           end.
  repeat split. exists fn. split; [ reflexivity | exact Hcall ].
Qed.

(** X7. When the locale's [formatRelative] throws in a valid call, the call ends
    with that exception and [format] is never called. *)
Theorem locale_exception_skips_format (fn : FormatRelativeFn) (e : Error) :
  valid_call process arguments ->
  Locale.formatRelative (locale_of process arguments) = Some fn ->
  apply_formatRelative fn (token_of_diff (diff_of arguments))
    (utcDate_of arguments) (utcBaseDate_of arguments) (passed_of process arguments)
  = Throw e ->
  completion (formatRelative process arguments) = Throw e /\
  own_throws (calls (formatRelative process arguments)) = [] /\
  forall date formatStr o,
    ~ In (call_format date formatStr o) (calls (formatRelative process arguments)).
Proof.
  intros (Hlen & Hcomplete & Hdiff) Hrel Hcall.
  apply complete_inv in Hcomplete. destruct Hcomplete as (Hloc & Hlong & _).
  destruct (diff_of arguments) as [ | d ] eqn:Ed; [ discriminate | ].
  rewrite (run_renders process arguments fn d Hlen Hloc Hlong Hrel Ed).
  unfold calls, completion. cbn [fst snd]. rewrite Hcall.
  split; [ reflexivity | ]. split; [ reflexivity | ].
  intros date formatStr o Hin. cbn in Hin.
  repeat match type of Hin with
         | _ \/ _ => destruct Hin as [Hin | Hin]
         | False => destruct Hin
         | _ = _ => discriminate Hin
         end.
Qed.


End Body.

Section Inputs.
Context {realm : Realm} {host : Host}.



(** X10. Only the first three argument positions are read, and the third only as
    the options: two calls that pass the arity check and agree on these
    positions make the same calls after the arity check and end the same way. *)
Theorem only_three_arguments_are_read (process : Process) (arguments arguments' : list Value) :
  (2 <= List.length arguments)%nat ->
  (2 <= List.length arguments')%nat ->
  dirtyDate arguments = dirtyDate arguments' ->
  dirtyBaseDate arguments = dirtyBaseDate arguments' ->
  options arguments = options arguments' ->
  completion (formatRelative process arguments)
  = completion (formatRelative process arguments') /\
  tl (calls (formatRelative process arguments))
  = tl (calls (formatRelative process arguments')).
Proof.
  intros Hlen Hlen' Hdate HbaseDate Hoptions.
  apply Nat.ltb_ge in Hlen, Hlen'.
  unfold formatRelative, requiredArgs, invoke_throwing.
  rewrite Hlen, Hlen', Hdate, HbaseDate, Hoptions.
  unfold calls, completion, bind.
  repeat match goal with
         | |- context [ let (_, _) := ?m in _ ] => destruct m
         end.
  split; reflexivity.
Qed.

End Inputs.

Section Order.
Context {realm : Realm} {host : Host}.
Variables (process : Process) (arguments : list Value).

(** X11. A locale without one of its three properties stops the call before any
    date arithmetic: after the calls every call starts with, the log holds
    the [throw] statement and nothing else, so neither the difference nor a
    timezone offset is computed and no callee of the locale is reached. *)
Theorem incomplete_locale_stops_before_date_arithmetic :
  (2 <= List.length arguments)%nat ->
  complete (locale_of process arguments) = false ->
  exists e,
    formatRelative process arguments
    = (prelude process arguments ++ [throw_statement e], Throw e).
Proof.
  intros Hlen Hincomplete. apply incomplete_inv in Hincomplete.
  destruct Hincomplete as [ Hloc | [ (Hloc & Hlong) | (Hloc & Hlong & Hrel) ] ].
  - eexists. exact (run_no_localize process arguments Hlen Hloc).
  - eexists. exact (run_no_formatLong process arguments Hlen Hloc Hlong).
  - eexists. exact (run_no_formatRelative process arguments Hlen Hloc Hlong Hrel).
Qed.

End Order.

(** ** Concrete calls for the further properties *)

Lemma two_arguments_are_coerced_in_order_witness :
  (2 <= List.length Sample.partial_locale)%nat /\
  coerced (calls (formatRelative Sample.fresh Sample.partial_locale))
  = [VDate Sample.after; VDate Sample.before].
Proof.
  assert (Hlen : (2 <= List.length Sample.partial_locale)%nat) by (cbn; lia).
  split; [ exact Hlen | ].
  exact (two_arguments_are_coerced_in_order Sample.fresh Sample.partial_locale Hlen).
Defined.

Lemma callees_get_a_complete_locale_witness :
  In (passed_of Sample.fresh Sample.across_transition)
     (passed_options (calls (formatRelative Sample.fresh Sample.across_transition))) /\
  complete (Passed.locale (passed_of Sample.fresh Sample.across_transition)) = true.
Proof.
  assert (Hin : In (passed_of Sample.fresh Sample.across_transition)
                   (passed_options
                      (calls (formatRelative Sample.fresh Sample.across_transition))))
    by (left; reflexivity).
  split; [ exact Hin | ].
  exact (proj2 (proj2 (callees_get_a_complete_locale
                         Sample.fresh Sample.across_transition _ Hin))).
Defined.

Lemma format_call_decides_witness :
  In (call_format Sample.after "'tomorrow at' p"
        (passed_of Sample.fresh Sample.across_transition))
     (calls (formatRelative Sample.fresh Sample.across_transition)) /\
  completion (formatRelative Sample.fresh Sample.across_transition)
  = Return "'tomorrow at' p @1616967000000".
Proof.
  assert (Hin : In (call_format Sample.after "'tomorrow at' p"
                      (passed_of Sample.fresh Sample.across_transition))
                   (calls (formatRelative Sample.fresh Sample.across_transition)))
    by (cbn; auto 15).
  split; [ exact Hin | ].
  destruct (format_call_decides Sample.fresh Sample.across_transition _ _ _ Hin)
    as (_ & _ & _ & Hcompletion).
  rewrite Hcompletion. reflexivity.
Defined.

Lemma locale_exception_skips_format_witness :
  @valid_call Sample.realm Sample.failing_locale_host Sample.fresh Sample.across_transition /\
  @completion Sample.realm _
    (@formatRelative Sample.realm Sample.failing_locale_host
       Sample.fresh Sample.across_transition)
  = Throw (RangeError "'tomorrow at' p").
Proof.
  assert (Hvalid : @valid_call Sample.realm Sample.failing_locale_host
                     Sample.fresh Sample.across_transition)
    by (repeat split; cbn; lia).
  split; [ exact Hvalid | ].
  exact (proj1 (@locale_exception_skips_format Sample.realm Sample.failing_locale_host
                  Sample.fresh Sample.across_transition Sample.patterns
                  (RangeError "'tomorrow at' p") Hvalid eq_refl eq_refl)).
Defined.



Lemma only_three_arguments_are_read_witness :
  (2 <= List.length Sample.across_transition)%nat /\
  (2 <= List.length (Sample.across_transition ++ [VUndefined; VNumber (Int 5)]))%nat /\
  completion (formatRelative Sample.fresh Sample.across_transition)
  = completion (formatRelative Sample.fresh
                  (Sample.across_transition ++ [VUndefined; VNumber (Int 5)])).
Proof.
  assert (Hlen : (2 <= List.length Sample.across_transition)%nat) by (cbn; lia).
  assert (Hlen' : (2 <= List.length
                          (Sample.across_transition ++ [VUndefined; VNumber (Int 5)]))%nat)
    by (cbn; lia).
  split; [ exact Hlen | ]. split; [ exact Hlen' | ].
  exact (proj1 (only_three_arguments_are_read Sample.fresh Sample.across_transition
                  (Sample.across_transition ++ [VUndefined; VNumber (Int 5)])
                  Hlen Hlen' eq_refl eq_refl eq_refl)).
Defined.

Lemma incomplete_locale_stops_before_date_arithmetic_witness :
  (2 <= List.length Sample.partial_locale)%nat /\
  complete (locale_of Sample.fresh Sample.partial_locale) = false /\
  exists e,
    formatRelative Sample.fresh Sample.partial_locale
    = (prelude Sample.fresh Sample.partial_locale ++ [throw_statement e], Throw e).
Proof.
  assert (Hlen : (2 <= List.length Sample.partial_locale)%nat) by (cbn; lia).
  split; [ exact Hlen | ]. split; [ reflexivity | ].
  exact (incomplete_locale_stops_before_date_arithmetic
           Sample.fresh Sample.partial_locale Hlen eq_refl).
Defined.
